(** * carbontracker: the component registry, handler selection, power-sample
    buckets and energy integration of [carbontracker/components/component.py].

    The development is a shallow embedding.  Python objects that are mutated
    in place ([Component]) are threaded explicitly; the hardware that the
    handlers probe is an abstract [World] that every handler call may read
    and change; raised exceptions are an explicit outcome that leaves the
    state reached so far in place.  A Python number is represented by its
    value, a rational ([Qc]).  numpy is outside the repository: the numpy
    operations of [energy_usage] are parameters ([Numpy.t]) of which
    nothing is assumed; [Np] is the numpy of exact arithmetic, kept for
    what depends on the structure of the loop only. *)

From Stdlib Require Import Ascii String.
From Stdlib Require Import List Bool Arith ZArith NArith Lia.
From Stdlib Require Import QArith Qcanon.
Import ListNotations.

Close Scope Qc_scope.
Close Scope Q_scope.
Set Implicit Arguments.

(** ** Python strings *)

Module PyStr.

(** A Python [str] is a sequence of Unicode code points. *)
Definition char := N.
Definition str := list char.

(** The code points of a literal. *)
Definition py (s : string) : str := List.map N_of_ascii (list_ascii_of_string s).

Fixpoint eqb (a b : str) : bool :=
  match a, b with
  | [], [] => true
  | x :: a', y :: b' => N.eqb x y && eqb a' b'
  | _, _ => false
  end.

(** [name in names] *)
Definition mem (x : str) (l : list str) : bool := existsb (eqb x) l.

(** The characters that [str.strip()] removes: those for which
    [str.isspace()] holds. *)
Definition isspace (c : char) : bool :=
  ((9 <=? c) && (c <=? 13) || (28 <=? c) && (c <=? 32)
   || (c =? 133) || (c =? 160) || (c =? 5760)
   || (8192 <=? c) && (c <=? 8202)
   || (c =? 8232) || (c =? 8233) || (c =? 8239) || (c =? 8287)
   || (c =? 12288))%N.

Fixpoint lstrip (s : str) : str :=
  match s with
  | [] => []
  | c :: s' => if isspace c then lstrip s' else s
  end.

Definition rstrip (s : str) : str := rev (lstrip (rev s)).

(** [s.strip()] *)
Definition strip (s : str) : str := rstrip (lstrip s).

(** [s.replace(old, "")] for a one-character [old]. *)
Definition replace (old : char) (s : str) : str :=
  filter (fun c => negb (N.eqb c old)) s.

(** [s.split(sep)] for a one-character [sep]; never the empty list. *)
Fixpoint split (sep : char) (s : str) : list str :=
  match s with
  | [] => [[]]
  | c :: s' =>
      if N.eqb c sep then [] :: split sep s'
      else match split sep s' with
           | tok :: rest => (c :: tok) :: rest
           | [] => [[c]]
           end
  end.

Definition space : char := 32%N.
Definition comma : char := 44%N.

End PyStr.
Import PyStr.

(** ** Exceptions and the state-and-exception monad *)

Inductive exn : Type :=
| GPUError (msg : str)
| CPUError (msg : str)
| ComponentNameError (msg : str)
| IndexError
| TypeError
| ValueError.

Inductive Outcome (A : Type) : Type :=
| Return (a : A)
| Raise (e : exn).
Arguments Return {A} a.
Arguments Raise {A} e.

(** A computation over a mutable state [S]: it ends by returning or by
    raising, and in both cases leaves a state behind. *)
Definition M (S A : Type) : Type := S -> Outcome A * S.

Definition ret {S A} (a : A) : M S A := fun s => (Return a, s).
Definition raise {S A} (e : exn) : M S A := fun s => (Raise e, s).
Definition bind {S A B} (m : M S A) (k : A -> M S B) : M S B :=
  fun s => match m s with
           | (Return a, s') => k a s'
           | (Raise e, s') => (Raise e, s')
           end.
Definition get {S} : M S S := fun s => (Return s, s).
Definition modify {S} (f : S -> S) : M S unit := fun s => (Return tt, f s).

Declare Scope py_scope.
Delimit Scope py_scope with py.
Notation "x <- m ;; k" := (bind m (fun x => k))
  (at level 61, m at next level, right associativity) : py_scope.
Notation "m ;; k" := (bind m (fun _ => k))
  (at level 61, right associativity) : py_scope.
Open Scope py_scope.

(** [call f] runs an operation on the second component of a paired state. *)
Definition call {S W A} (f : W -> A * W) : M (S * W) A :=
  fun s => let (a, w') := f (snd s) in (Return a, (fst s, w')).

(** A list comprehension whose element expression has effects: the elements
    are evaluated from left to right and the first exception ends it. *)
Fixpoint comprehension {S A B} (f : A -> M S B) (xs : list A) : M S (list B) :=
  match xs with
  | [] => ret []
  | x :: xs' => y <- f x ;; ys <- comprehension f xs' ;; ret (y :: ys)
  end.

(** ** Numbers, and a numpy of exact arithmetic *)

Module Np.

(** The operations below compute with exact rationals.  They are not numpy:
    numpy rounds to float64, sums in an order of its own and has its own
    exceptions.  They serve as one numpy among all ([Numpy.exact]), for
    examples and for properties that the arithmetic plays no part in. *)

(** [z] as a number. *)
Definition num (z : Z) : Qc := Q2Qc (inject_Z z).

(** A scalar: a number, or [nan]. *)
Inductive npfloat : Type :=
| Fin (q : Qc)
| NaN.

(** The shape of what [np.mean(_, axis=0)] gives for a list of rows: a
    scalar when there is no row, otherwise a one-dimensional array with an
    entry per column. *)
Inductive ndarray : Type :=
| Scalar (x : npfloat)
| Array1 (xs : list Qc).

(** Entrywise sum of two rows of the same length. *)
Fixpoint vadd (a b : list Qc) : list Qc :=
  match a, b with
  | x :: a', y :: b' => (x + y)%Qc :: vadd a' b'
  | _, _ => []
  end.

(** The sums of the columns of rows of length [w]. *)
Definition add_reduce (w : nat) (rows : list (list Qc)) : list Qc :=
  fold_left vadd rows (repeat 0%Qc w).

(** Whether the rows form a two-dimensional array. *)
Definition homogeneous (rows : list (list Qc)) : bool :=
  match rows with
  | [] => true
  | r :: rest => forallb (fun r' => Nat.eqb (length r') (length r)) rest
  end.

(** In place of [np.mean(power, axis=0)]: [nan] when [power] is empty, as
    in numpy; an exception when the rows differ in length; and otherwise
    the exact column sums divided by the number of rows. *)
Definition mean (power : list (list Qc)) : Outcome ndarray :=
  match power with
  | [] => Return (Scalar NaN)
  | r :: _ =>
      if homogeneous power then
        Return (Array1 (List.map (fun x => x / num (Z.of_nat (length power)))%Qc
                                 (add_reduce (length r) power)))
      else Raise ValueError
  end.

(** In place of [np.multiply(a, time)]: the exact products. *)
Definition multiply (a : ndarray) (time : Qc) : ndarray :=
  match a with
  | Scalar (Fin x) => Scalar (Fin (x * time)%Qc)
  | Scalar NaN => Scalar NaN
  | Array1 xs => Array1 (List.map (fun x => x * time)%Qc xs)
  end.

(** In place of [a.sum()]: the exact sum. *)
Definition sum (a : ndarray) : npfloat :=
  match a with
  | Scalar x => x
  | Array1 xs => Fin (fold_left Qcplus xs 0%Qc)
  end.

(** In place of [x / d] for a non-zero number [d]: the exact quotient. *)
Definition divide (x : npfloat) (d : Qc) : npfloat :=
  match x with
  | Fin q => Fin (q / d)%Qc
  | NaN => NaN
  end.

End Np.

(** ** The hardware handlers *)

Module Handler.

(** Modelled from the spec: the handler classes [nvidia.NvidiaGPU] and
    [intel.IntelCPU] are not part of the file; a handler is the capability of
    section 6 of the specification, five operations that do not raise.  Each
    may read and change the hardware [World].  [id] stands for the identity of
    the Python object. *)
Record t (World : Type) : Type := Build {
  id : nat;
  available : World -> bool * World;
  devices : World -> list str * World;
  power_usage : World -> list Qc * World;
  init : World -> unit * World;
  shutdown : World -> unit * World
}.

End Handler.

(** ** The registry *)

(** One dictionary of the module-level list [components]. *)
Record comp (World : Type) : Type := Comp {
  comp_name : str;
  comp_error : exn;
  comp_handlers : list (Handler.t World)
}.

(** The list [components] of the module, for the two handler objects that it
    creates when it is imported. *)
Definition components {World} (NvidiaGPU IntelCPU : Handler.t World)
  : list (comp World) :=
  [ {| comp_name := py "gpu";
       comp_error := GPUError (py "No GPU(s) available.");
       comp_handlers := [NvidiaGPU] |};
    {| comp_name := py "cpu";
       comp_error := CPUError (py "No CPU(s) available.");
       comp_handlers := [IntelCPU] |} ].

(** ** The class [Component] *)

(** One sample: the watts of each device.  One bucket: the samples of one
    epoch. *)
Abbreviation reading := (list Qc).
Abbreviation bucket := (list (list Qc)).

Record Component (World : Type) : Type := MkComponent {
  name : str;
  _handler : option (Handler.t World);
  power_usages : list bucket;
  cur_epoch : Z
}.

Section Registry.

Variable World : Type.

(** The functions of the module read its global list [components].  Here the
    list is a variable, so that what is proved holds for every table of
    candidate handlers, the list [components] above included. *)
Variable registry : list (comp World).

#[local] Abbreviation Handler := (Handler.t World).
#[local] Abbreviation Component := (Component World).

(** The state that a method runs in: the object [self] and the hardware. *)
#[local] Abbreviation State := (Component * World)%type.

Definition component_names : list str := List.map (@comp_name World) registry.

(** A Python function that reaches its end returns [None]. *)
Fixpoint lookup {A} (field : comp World -> A) (comps : list (comp World))
  (name : str) : option A :=
  match comps with
  | [] => None
  | comp :: rest =>
      if eqb (comp_name comp) name then Some (field comp)
      else lookup field rest name
  end.

Definition error_by_name (name : str) : option exn :=
  lookup (@comp_error World) registry name.

Definition handlers_by_name (name : str) : option (list Handler) :=
  lookup (@comp_handlers World) registry name.

(** The loop of [_determine_handler]. *)
Fixpoint first_available (handlers : list Handler) : M World (option Handler) :=
  match handlers with
  | [] => ret None
  | handler :: rest =>
      fun w => let (b, w') := Handler.available handler w in
               if b then (Return (Some handler), w')
               else first_available rest w'
  end.

(** Iterating over [None] is a [TypeError]. *)
Definition _determine_handler (self_name : str) : M World (option Handler) :=
  match handlers_by_name self_name with
  | Some handlers => first_available handlers
  | None => raise TypeError
  end.

Definition ComponentNameError_msg (self_name : str) : str :=
  py "No component found with name '" ++ self_name ++ py "'.".

(** [Component(name)] *)
Definition __init__ (name : str) : M World Component :=
  if negb (mem name component_names)
  then raise (ComponentNameError (ComponentNameError_msg name))
  else
    h <- _determine_handler name ;;
    ret {| name := name; _handler := h; power_usages := []; cur_epoch := (-1)%Z |}.

(** The property [handler]; [raise None] is a [TypeError]. *)
Definition handler : M State Handler :=
  s <- get ;;
  match _handler (fst s) with
  | None =>
      match error_by_name (name (fst s)) with
      | Some e => raise e
      | None => raise TypeError
      end
  | Some h => ret h
  end.

Definition devices : M State (list str) :=
  h <- handler ;; call (Handler.devices h).

Definition available (self : Component) : bool :=
  match _handler self with
  | Some _ => true
  | None => false
  end.

Definition set_cur_epoch (epoch : Z) (s : State) : State :=
  ({| name := name (fst s); _handler := _handler (fst s);
      power_usages := power_usages (fst s); cur_epoch := epoch |}, snd s).

Definition set_power_usages (p : list bucket) (s : State) : State :=
  ({| name := name (fst s); _handler := _handler (fst s);
      power_usages := p; cur_epoch := cur_epoch (fst s) |}, snd s).

(** [self.power_usages.append([])] *)
Definition open_bucket : M State unit :=
  modify (fun s => set_power_usages (power_usages (fst s) ++ [[]]) s).

(** [self.power_usages[-1]]: the position of the last bucket. *)
Definition last_bucket : M State nat :=
  s <- get ;;
  match power_usages (fst s) with
  | [] => raise IndexError
  | _ :: rest => ret (List.length rest)
  end.

(** [b.append(r)] for the bucket [b] at position [i] of [power_usages]. *)
Fixpoint append_at {A} (i : nat) (r : A) (p : list (list A)) : list (list A) :=
  match p, i with
  | [], _ => []
  | b :: rest, O => (b ++ [r]) :: rest
  | b :: rest, S i' => b :: append_at i' r rest
  end.

Definition bucket_append (i : nat) (r : reading) : M State unit :=
  modify (fun s => set_power_usages (append_at i r (power_usages (fst s))) s).

(** In the last statement the bucket [self.power_usages[-1]] is evaluated
    first, then [self.handler], then the call of [power_usage], and last the
    call of [append]. *)
Definition collect_power_usage (epoch : Z) : M State unit :=
  if (epoch <? 1)%Z then ret tt
  else
    (s <- get ;;
     if negb (epoch =? cur_epoch (fst s))%Z
     then modify (set_cur_epoch epoch) ;; open_bucket
     else ret tt) ;;
    i <- last_bucket ;;
    h <- handler ;;
    r <- call (Handler.power_usage h) ;;
    bucket_append i r.

(** The loop of [energy_usage] over the zipped pairs, with the exact
    arithmetic of [Np] for numpy; [WithNumpy.energy_loop] is the loop over
    numpy as it is. *)
Fixpoint energy_loop (pairs : list (bucket * Qc)) (energy_usages : list Np.npfloat)
  : Outcome (list Np.npfloat) :=
  match pairs with
  | [] => Return energy_usages
  | (power, time) :: rest =>
      match Np.mean power with
      | Raise e => Raise e
      | Return avg_power_usage =>
          let energy_usage := Np.sum (Np.multiply avg_power_usage time) in
          let energy_usage := Np.divide energy_usage (Np.num 3600000) in
          energy_loop rest (energy_usages ++ [energy_usage])
      end
  end.

(** [energy_usage] reads [self] and changes nothing. *)
Definition energy_usage (self : Component) (epoch_times : list Qc)
  : Outcome (list Np.npfloat) :=
  energy_loop (combine (power_usages self) epoch_times) [].

Definition init : M State unit :=
  h <- handler ;; call (Handler.init h).

Definition shutdown : M State unit :=
  h <- handler ;; call (Handler.shutdown h).

Definition create_components (comp_str : str) : M World (list Component) :=
  let comp_str := replace space (strip comp_str) in
  if eqb comp_str (py "all")
  then comprehension __init__ component_names
  else comprehension __init__ (split comma comp_str).

End Registry.

Arguments component_names {World} registry.
Arguments error_by_name {World} registry name.
Arguments handlers_by_name {World} registry name.

(** ** [energy_usage] over numpy as it is *)

Module Numpy.

(** numpy is a library outside the repository.  The four operations of it
    that [energy_usage] calls are parameters: each takes its arguments and
    returns a value or raises, and nothing more is assumed of them, so that
    float64 rounding, the order in which numpy sums, its conversion of
    Python numbers and its exceptions are whatever numpy makes them. *)
Record t : Type := Build {
  array : Type;
  scalar : Type;
  (** [np.mean(power, axis=0)] *)
  mean : bucket -> Outcome array;
  (** [np.multiply(a, time)] *)
  multiply : array -> Qc -> Outcome array;
  (** [a.sum()] *)
  sum : array -> Outcome scalar;
  (** [x / d] for the integer literal [d] *)
  divide : scalar -> Z -> Outcome scalar
}.

(** The exact arithmetic of [Np] is one such numpy. *)
Definition exact : t :=
  {| array := Np.ndarray;
     scalar := Np.npfloat;
     mean := Np.mean;
     multiply := fun a time => Return (Np.multiply a time);
     sum := fun a => Return (Np.sum a);
     divide := fun x d => Return (Np.divide x (Np.num d)) |}.

End Numpy.

Module WithNumpy.

Section Loop.

Variable np : Numpy.t.

(** The body of the loop of [energy_usage]: the three statements that
    compute the energy of one epoch. *)
Definition epoch_value (power : bucket) (time : Qc) : Outcome (Numpy.scalar np) :=
  match Numpy.mean np power with
  | Raise e => Raise e
  | Return avg_power_usage =>
      match Numpy.multiply np avg_power_usage time with
      | Raise e => Raise e
      | Return joules =>
          match Numpy.sum np joules with
          | Raise e => Raise e
          | Return energy_usage => Numpy.divide np energy_usage 3600000
          end
      end
  end.

(** The loop of [energy_usage] over the zipped pairs. *)
Fixpoint energy_loop (pairs : list (bucket * Qc))
  (energy_usages : list (Numpy.scalar np)) : Outcome (list (Numpy.scalar np)) :=
  match pairs with
  | [] => Return energy_usages
  | (power, time) :: rest =>
      match epoch_value power time with
      | Raise e => Raise e
      | Return energy_usage =>
          energy_loop rest (energy_usages ++ [energy_usage])
      end
  end.

(** [energy_usage] reads [self] and changes nothing. *)
Definition energy_usage {World} (self : Component World) (epoch_times : list Qc)
  : Outcome (list (Numpy.scalar np)) :=
  energy_loop (combine (power_usages self) epoch_times) [].

End Loop.

End WithNumpy.

(** ** The specification's wording of handler selection *)

Module Spec.

Section Probing.
Variable World : Type.

(** Every handler of the list, asked in turn from hardware state [w], answers
    that it is not available; the hardware is then in state [w']. *)
Inductive all_unavailable : list (Handler.t World) -> World -> World -> Prop :=
| all_unavailable_nil w : all_unavailable [] w w
| all_unavailable_cons h hs w w1 w2 :
    Handler.available h w = (false, w1) ->
    all_unavailable hs w1 w2 ->
    all_unavailable (h :: hs) w w2.

(** [h] is the first handler of the list that, asked in list order from
    hardware state [w], answers that it is available. *)
Definition first_to_report (hs : list (Handler.t World)) (w : World)
  (h : Handler.t World) (w' : World) : Prop :=
  exists pre post w1,
    hs = pre ++ h :: post /\ all_unavailable pre w w1 /\
    Handler.available h w1 = (true, w').

End Probing.

End Spec.

(** ** Handlers for examples *)

Module Fake.

(** The hardware of the examples is a counter of the handler calls made. *)
Definition World := nat.

(** A handler that answers [avail] and measures [watts w] at call [w]. *)
Definition handler (i : nat) (avail : bool) (watts : nat -> list Qc)
  : Handler.t World :=
  {| Handler.id := i;
     Handler.available := fun w => (avail, S w);
     Handler.devices := fun w => ([py "dev0"], S w);
     Handler.power_usage := fun w => (watts w, S w);
     Handler.init := fun w => (tt, S w);
     Handler.shutdown := fun w => (tt, S w) |}.

(** One device whose draw grows with the call counter. *)
Definition ramp (w : nat) : list Qc := [Np.num (100 + Z.of_nat w)].

Definition nvidia_on := handler 1 true ramp.
Definition nvidia_off := handler 1 false ramp.
Definition intel_on := handler 2 true ramp.
Definition intel_off := handler 2 false ramp.

(** A table with two candidates for one hardware type, the first of which is
    not available. *)
Definition two_candidates : list (comp World) :=
  [ {| comp_name := py "gpu";
       comp_error := GPUError (py "No GPU(s) available.");
       comp_handlers := [handler 10 false ramp; handler 11 true ramp;
                         handler 12 true ramp] |} ].

End Fake.

(** ** The states of a component *)

Module Inv.

(** What holds of a component from its construction on: while no epoch was
    started there is no bucket, and once one was started there is a bucket. *)
Definition consistent {World} (self : Component World) : Prop :=
  (cur_epoch self = (-1)%Z /\ power_usages self = [])
  \/ ((1 <= cur_epoch self)%Z /\ power_usages self <> []).

(** [b.append(r)] for the last bucket [b] of a list of buckets. *)
Definition append_to_last (r : reading) (p : list bucket) : list bucket :=
  removelast p ++ [last p [] ++ [r]].

(** The component after the first two statements of [collect_power_usage]. *)
Definition entered {World} (epoch : Z) (self : Component World) : Component World :=
  if (epoch =? cur_epoch self)%Z then self
  else {| name := name self; _handler := _handler self;
          power_usages := power_usages self ++ [[]]; cur_epoch := epoch |}.

End Inv.

(** ** Callers *)

Module Caller.

(** A caller's loop [for epoch in epochs: self.collect_power_usage(epoch)]. *)
Fixpoint collect_each {World} (registry : list (comp World)) (epochs : list Z)
  : M (Component World * World) unit :=
  match epochs with
  | [] => ret tt
  | epoch :: rest =>
      collect_power_usage registry epoch ;; collect_each registry rest
  end.

(** How often, in a sequence of epochs that follows the marker [cur], an
    epoch of at least 1 differs from the last such epoch before it. *)
Fixpoint epoch_changes (cur : Z) (epochs : list Z) : nat :=
  match epochs with
  | [] => 0
  | epoch :: rest =>
      if (epoch <? 1)%Z then epoch_changes cur rest
      else (if (epoch =? cur)%Z then 0 else 1) + epoch_changes epoch rest
  end.

(** The number of samples in all buckets. *)
Definition samples (p : list bucket) : nat :=
  list_sum (List.map (@List.length reading) p).

(** [a] is [b], or [b] with one more space somewhere. *)
Definition with_a_space (a b : str) : Prop :=
  a = b \/ exists u v, a = u ++ space :: v /\ b = u ++ v.

End Caller.

(** * Properties *)

(** ** Strings *)

Module PyStrFacts.

Lemma eqb_spec (a b : str) : reflect (a = b) (eqb a b).
Proof.
  revert b; induction a as [|x a IH]; intros [|y b]; simpl;
    try (constructor; congruence).
  destruct (N.eqb_spec x y) as [->|Hxy]; simpl.
  - destruct (IH b) as [->|Hab]; constructor; congruence.
  - constructor; congruence.
Qed.

Lemma eqb_refl (a : str) : eqb a a = true.
Proof. destruct (eqb_spec a a); congruence. Qed.

Lemma eqb_eq (a b : str) : eqb a b = true <-> a = b.
Proof. destruct (eqb_spec a b); split; congruence. Qed.

Lemma eqb_neq (a b : str) : eqb a b = false <-> a <> b.
Proof. destruct (eqb_spec a b); split; congruence. Qed.

Lemma mem_In (x : str) (l : list str) : mem x l = true <-> In x l.
Proof.
  unfold mem; rewrite existsb_exists; split.
  - intros (y & Hy & E); apply eqb_eq in E; subst; assumption.
  - intros H; exists x; split; [assumption | apply eqb_refl].
Qed.

Lemma mem_not_In (x : str) (l : list str) : mem x l = false <-> ~ In x l.
Proof.
  rewrite <- mem_In; destruct (mem x l); split; congruence.
Qed.

End PyStrFacts.
Import PyStrFacts.

(** ** The registry look-ups *)

Section RegistryFacts.

Variable World : Type.
Variable registry : list (comp World).

Lemma lookup_unregistered {A} (field : comp World -> A) (comps : list (comp World))
  (name : str) :
  ~ In name (List.map (@comp_name World) comps) -> lookup field comps name = None.
Proof.
  induction comps as [|c rest IH]; simpl; intros Hn; [reflexivity|].
  destruct (eqb_spec (comp_name c) name) as [E|_].
  - exfalso; apply Hn; left; exact E.
  - apply IH; intros Hin; apply Hn; right; exact Hin.
Qed.

Lemma lookup_registered {A} (field : comp World -> A) (comps : list (comp World))
  (name : str) :
  In name (List.map (@comp_name World) comps) ->
  exists c, In c comps /\ comp_name c = name /\ lookup field comps name = Some (field c).
Proof.
  induction comps as [|c rest IH]; simpl; intros Hin; [contradiction|].
  destruct (eqb_spec (comp_name c) name) as [E|Hne].
  - exists c; auto.
  - destruct Hin as [E|Hin]; [contradiction|].
    destruct (IH Hin) as (c' & Hc' & Hname & Hl); exists c'; auto.
Qed.

Lemma error_by_name_registered (name : str) :
  In name (component_names registry) -> exists e, error_by_name registry name = Some e.
Proof.
  intros Hin; destruct (lookup_registered (@comp_error World) registry name Hin)
    as (c & _ & _ & Hl); exists (comp_error c); exact Hl.
Qed.

Lemma handlers_by_name_registered (name : str) :
  In name (component_names registry) ->
  exists hs, handlers_by_name registry name = Some hs.
Proof.
  intros Hin; destruct (lookup_registered (@comp_handlers World) registry name Hin)
    as (c & _ & _ & Hl); exists (comp_handlers c); exact Hl.
Qed.

End RegistryFacts.

(** C9, as the code has it: for a name that is not registered the look-up
    [handlers_by_name] reaches the end of its loop, so it returns [None], not
    a sequence; it does not raise. *)
Theorem handlers_by_name_unregistered (World : Type) (registry : list (comp World))
  (name : str) :
  ~ In name (component_names registry) -> handlers_by_name registry name = None.
Proof. apply lookup_unregistered. Qed.

Lemma handlers_by_name_unregistered_witness :
  ~ In (py "tpu") (component_names (components Fake.nvidia_on Fake.intel_on))
  /\ handlers_by_name (components Fake.nvidia_on Fake.intel_on) (py "tpu") = None.
Proof.
  assert (H : ~ In (py "tpu")
                (component_names (components Fake.nvidia_on Fake.intel_on))).
  { apply mem_not_In; reflexivity. }
  split; [exact H | exact (handlers_by_name_unregistered _ _ H)].
Defined.

(** C9 as the specification words it fails: "tpu" is not registered, and the
    look-up does not give the empty sequence of handlers for it. *)
Lemma unregistered_lookup_is_not_empty_list :
  ~ In (py "tpu") (component_names (components Fake.nvidia_on Fake.intel_on))
  /\ handlers_by_name (components Fake.nvidia_on Fake.intel_on) (py "tpu") <> Some [].
Proof.
  split; [apply mem_not_In; reflexivity | discriminate].
Qed.

(** ** Sampling *)

(** C6: for an epoch below 1, [collect_power_usage] returns at once: the
    buckets, the epoch marker, the rest of the component and the hardware are
    as before, whether or not a handler was resolved. *)
Theorem collect_power_usage_below_one (World : Type) (registry : list (comp World))
  (self : Component World) (w : World) (epoch : Z) :
  (epoch < 1)%Z ->
  collect_power_usage registry epoch (self, w) = (Return tt, (self, w)).
Proof.
  intros H; unfold collect_power_usage.
  destruct (Z.ltb_spec epoch 1) as [_|Hge]; [reflexivity | lia].
Qed.

Lemma collect_power_usage_below_one_witness :
  let table := components Fake.nvidia_on Fake.intel_on in
  let self := {| name := py "gpu"; _handler := Some Fake.nvidia_on;
                 power_usages := [[[Np.num 100]]]; cur_epoch := 1 |} in
  collect_power_usage table 0 (self, 7) = (Return tt, (self, 7))
  /\ collect_power_usage table (-1) (self, 7) = (Return tt, (self, 7)).
Proof.
  split; apply collect_power_usage_below_one; lia.
Defined.

(** ** Construction and handler selection *)

Ltac run_monad :=
  unfold bind, ret, raise, get, modify, call; simpl.

Section Construction.

Variable World : Type.
Variable registry : list (comp World).

#[local] Abbreviation Handler := (Handler.t World).

Lemma first_available_returns (hs : list Handler) (w : World) :
  exists o w', first_available hs w = (Return o, w').
Proof.
  revert w; induction hs as [|h hs IH]; intros w; simpl.
  - exists None, w; reflexivity.
  - destruct (Handler.available h w) as [[|] w1].
    + exists (Some h), w1; reflexivity.
    + apply IH.
Qed.

Lemma first_available_some (hs : list Handler) (w w' : World) (h : Handler) :
  first_available hs w = (Return (Some h), w') <-> Spec.first_to_report hs w h w'.
Proof.
  revert w; induction hs as [|x hs IH]; intros w; simpl.
  - split; [discriminate|].
    intros (pre & post & w1 & E & _); destruct pre; discriminate.
  - destruct (Handler.available x w) as [[|] w1] eqn:Ex.
    + split.
      * intros E; injection E as <- <-.
        exists [], hs, w; repeat split; [constructor | exact Ex].
      * intros (pre & post & w2 & E & Hpre & Hh).
        destruct pre as [|y pre]; simpl in E; injection E as <- ->.
        -- inversion Hpre; subst. congruence.
        -- inversion Hpre; subst. congruence.
    + rewrite IH; split.
      * intros (pre & post & w2 & -> & Hpre & Hh).
        exists (x :: pre), post, w2; repeat split; [|exact Hh].
        econstructor; eassumption.
      * intros (pre & post & w2 & E & Hpre & Hh).
        destruct pre as [|y pre]; simpl in E; injection E as <- ->.
        -- inversion Hpre; subst. congruence.
        -- inversion Hpre; subst.
           assert (w3 = w1) by congruence; subst.
           exists pre, post, w2; auto.
Qed.

Lemma first_available_none (hs : list Handler) (w w' : World) :
  first_available hs w = (Return None, w') <-> Spec.all_unavailable hs w w'.
Proof.
  revert w; induction hs as [|x hs IH]; intros w; simpl.
  - split.
    + intros E; injection E as <-; constructor.
    + intros H; inversion H; reflexivity.
  - destruct (Handler.available x w) as [[|] w1] eqn:Ex.
    + split; [discriminate|].
      intros H; inversion H; subst; congruence.
    + rewrite IH; split.
      * intros H; econstructor; eassumption.
      * intros H; inversion H; subst.
        assert (w2 = w1) by congruence; subst; assumption.
Qed.

Lemma init_unregistered (name : str) (w : World) :
  ~ In name (component_names registry) ->
  __init__ registry name w
  = (Raise (ComponentNameError (ComponentNameError_msg name)), w).
Proof.
  intros Hn; unfold __init__.
  apply mem_not_In in Hn; rewrite Hn; reflexivity.
Qed.

Lemma init_registered (name : str) (w : World) :
  In name (component_names registry) ->
  exists hs o w',
    handlers_by_name registry name = Some hs
    /\ first_available hs w = (Return o, w')
    /\ __init__ registry name w
       = (Return {| name := name; _handler := o; power_usages := [];
                    cur_epoch := (-1)%Z |}, w').
Proof.
  intros Hin.
  destruct (handlers_by_name_registered registry name Hin) as (hs & Hhs).
  destruct (first_available_returns hs w) as (o & w' & Hfa).
  exists hs, o, w'; repeat split; try assumption.
  unfold __init__, _determine_handler.
  apply mem_In in Hin; rewrite Hin, Hhs; run_monad; rewrite Hfa; reflexivity.
Qed.

End Construction.

(** C4: [Component(name)] raises [ComponentNameError] exactly when [name] is
    not one of the registry's component names, and returns a component
    exactly when it is one: whether a candidate handler is available plays no
    part. *)
Theorem init_raises_iff_unregistered (World : Type) (registry : list (comp World))
  (name : str) (w : World) :
  ((exists msg w', __init__ registry name w = (Raise (ComponentNameError msg), w'))
   <-> ~ In name (component_names registry))
  /\ ((exists self w', __init__ registry name w = (Return self, w'))
      <-> In name (component_names registry)).
Proof.
  destruct (in_dec (list_eq_dec N.eq_dec) name (component_names registry))
    as [Hin|Hn].
  - destruct (init_registered registry name w Hin) as (hs & o & w' & _ & _ & E).
    split; split.
    + intros (msg & w1 & E1); rewrite E in E1; discriminate.
    + intros Hn; contradiction.
    + intros _; assumption.
    + intros _; eauto.
  - pose proof (init_unregistered registry name w Hn) as E.
    split; split.
    + intros _; assumption.
    + intros _; eauto.
    + intros (self & w1 & E1); rewrite E in E1; discriminate.
    + intros Hin; contradiction.
Qed.

(** No candidate of the table is available, and construction returns. *)
Example init_without_backend :
  __init__ (components Fake.nvidia_off Fake.intel_off) (py "gpu") 0
  = (Return {| name := py "gpu"; _handler := None; power_usages := [];
               cur_epoch := (-1)%Z |}, 1).
Proof. reflexivity. Qed.

(** C3: for a registered name, [Component(name)] returns a component whose
    handler was chosen during construction by asking the candidates of the
    registry in list order: it is the first that answers that it is
    available, and [None] when every candidate answers that it is not; and
    [available()] is true exactly when a candidate answered that it is
    available. *)
Theorem init_selects_first_available (World : Type) (registry : list (comp World))
  (name : str) (w : World) :
  In name (component_names registry) ->
  exists hs self w',
    handlers_by_name registry name = Some hs
    /\ __init__ registry name w = (Return self, w')
    /\ match _handler self with
       | Some h => Spec.first_to_report hs w h w'
       | None => Spec.all_unavailable hs w w'
       end
    /\ (available self = true <-> exists h w1, Spec.first_to_report hs w h w1).
Proof.
  intros Hin.
  destruct (init_registered registry name w Hin) as (hs & o & w' & Hhs & Hfa & E).
  exists hs, {| name := name; _handler := o; power_usages := [];
                cur_epoch := (-1)%Z |}, w'.
  repeat split; try assumption; unfold available; simpl.
  - destruct o as [h|].
    + apply first_available_some; exact Hfa.
    + apply first_available_none; exact Hfa.
  - destruct o as [h|]; [|discriminate].
    intros _; exists h, w'; apply first_available_some; exact Hfa.
  - intros (h & w1 & Hrep); apply first_available_some in Hrep.
    rewrite Hfa in Hrep; destruct o; [reflexivity | discriminate].
Qed.

Lemma init_selects_first_available_witness :
  In (py "gpu") (component_names Fake.two_candidates) /\
  exists hs self w',
    handlers_by_name Fake.two_candidates (py "gpu") = Some hs
    /\ __init__ Fake.two_candidates (py "gpu") 0 = (Return self, w')
    /\ match _handler self with
       | Some h => Spec.first_to_report hs 0 h w'
       | None => Spec.all_unavailable hs 0 w'
       end
    /\ (available self = true <-> exists h w1, Spec.first_to_report hs 0 h w1).
Proof.
  assert (H : In (py "gpu") (component_names Fake.two_candidates))
    by (left; reflexivity).
  split; [exact H | exact (init_selects_first_available _ _ 0 H)].
Defined.

(** With three candidates of which the second and third are available, the
    second is selected and the third is never asked. *)
Example init_two_candidates :
  __init__ Fake.two_candidates (py "gpu") 0
  = (Return {| name := py "gpu"; _handler := Some (Fake.handler 11 true Fake.ramp);
               power_usages := []; cur_epoch := (-1)%Z |}, 2).
Proof. reflexivity. Qed.

(** ** Operations that need the handler *)

Section HandlerAccess.

Variable World : Type.
Variable registry : list (comp World).

Lemma handler_unresolved (self : Component World) (w : World) (e : exn) :
  _handler self = None ->
  error_by_name registry (name self) = Some e ->
  handler registry (self, w) = (Raise e, (self, w)).
Proof.
  intros Hh He; unfold handler; run_monad; rewrite Hh, He; reflexivity.
Qed.

Lemma handler_resolved (self : Component World) (w : World) (h : Handler.t World) :
  _handler self = Some h ->
  handler registry (self, w) = (Return h, (self, w)).
Proof.
  intros Hh; unfold handler; run_monad; rewrite Hh; reflexivity.
Qed.

End HandlerAccess.

(** The errors that the module's own table registers. *)
Lemma error_by_name_components (World : Type) (NvidiaGPU IntelCPU : Handler.t World) :
  error_by_name (components NvidiaGPU IntelCPU) (py "gpu")
  = Some (GPUError (py "No GPU(s) available."))
  /\ error_by_name (components NvidiaGPU IntelCPU) (py "cpu")
     = Some (CPUError (py "No CPU(s) available.")).
Proof. split; reflexivity. Qed.

(** C5: on a component of a registered hardware type for which no handler was
    resolved, [devices()], [init()] and [shutdown()] raise the error that the
    registry holds for that type, and change neither the component nor the
    hardware. *)
Theorem unresolved_handler_raises (World : Type) (registry : list (comp World))
  (self : Component World) (w : World) :
  In (name self) (component_names registry) ->
  _handler self = None ->
  exists e,
    error_by_name registry (name self) = Some e
    /\ devices registry (self, w) = (Raise e, (self, w))
    /\ init registry (self, w) = (Raise e, (self, w))
    /\ shutdown registry (self, w) = (Raise e, (self, w)).
Proof.
  intros Hin Hh.
  destruct (error_by_name_registered registry (name self) Hin) as (e & He).
  pose proof (handler_unresolved registry self w Hh He) as E.
  exists e; repeat split; [exact He | | |];
    unfold devices, init, shutdown, bind; rewrite E; reflexivity.
Qed.

(** For the module's table: [GPUError] for "gpu" and [CPUError] for "cpu". *)
Lemma unresolved_handler_raises_witness :
  let table := components Fake.nvidia_off Fake.intel_off in
  let gpu := {| name := py "gpu"; _handler := None; power_usages := [];
                cur_epoch := (-1)%Z |} in
  let cpu := {| name := py "cpu"; _handler := None; power_usages := [];
                cur_epoch := (-1)%Z |} in
  (exists e, error_by_name table (name gpu) = Some e
     /\ devices table (gpu, 0) = (Raise e, (gpu, 0))
     /\ init table (gpu, 0) = (Raise e, (gpu, 0))
     /\ shutdown table (gpu, 0) = (Raise e, (gpu, 0)))
  /\ (exists e, error_by_name table (name cpu) = Some e
     /\ devices table (cpu, 0) = (Raise e, (cpu, 0))
     /\ init table (cpu, 0) = (Raise e, (cpu, 0))
     /\ shutdown table (cpu, 0) = (Raise e, (cpu, 0))).
Proof.
  split; apply unresolved_handler_raises; simpl; auto.
Defined.

Example devices_without_gpu :
  let gpu := {| name := py "gpu"; _handler := None; power_usages := [];
                cur_epoch := (-1)%Z |} in
  devices (components Fake.nvidia_off Fake.intel_off) (gpu, 0)
  = (Raise (GPUError (py "No GPU(s) available.")), (gpu, 0)).
Proof. reflexivity. Qed.

Example shutdown_without_cpu :
  let cpu := {| name := py "cpu"; _handler := None; power_usages := [];
                cur_epoch := (-1)%Z |} in
  shutdown (components Fake.nvidia_off Fake.intel_off) (cpu, 0)
  = (Raise (CPUError (py "No CPU(s) available.")), (cpu, 0)).
Proof. reflexivity. Qed.

(** C10: on a component of a registered hardware type with no resolved
    handler, [collect_power_usage(epoch)] for an epoch of at least 1 that
    differs from the marker raises the registered error of the type, and the
    component that it leaves has the marker set to [epoch] and one more,
    empty, bucket at the end. *)
Theorem collect_power_usage_unresolved (World : Type) (registry : list (comp World))
  (self : Component World) (w : World) (epoch : Z) :
  In (name self) (component_names registry) ->
  _handler self = None ->
  (1 <= epoch)%Z ->
  epoch <> cur_epoch self ->
  exists e,
    error_by_name registry (name self) = Some e
    /\ collect_power_usage registry epoch (self, w)
       = (Raise e,
          ({| name := name self; _handler := _handler self;
              power_usages := power_usages self ++ [[]];
              cur_epoch := epoch |}, w)).
Proof.
  intros Hin Hh Hge Hne.
  destruct (error_by_name_registered registry (name self) Hin) as (e & He).
  exists e; split; [exact He|].
  unfold collect_power_usage.
  destruct (Z.ltb_spec epoch 1) as [Hlt|_]; [lia|].
  unfold open_bucket, last_bucket; run_monad.
  destruct (Z.eqb_spec epoch (cur_epoch self)) as [E|_]; [contradiction|]; simpl.
  destruct (power_usages self ++ [[]]) as [|b rest] eqn:Ep.
  - destruct (power_usages self); discriminate.
  - rewrite <- Ep.
    unfold handler; run_monad; rewrite Hh, He.
    unfold set_power_usages, set_cur_epoch; simpl; rewrite Hh; reflexivity.
Qed.

Lemma collect_power_usage_unresolved_witness :
  let table := components Fake.nvidia_off Fake.intel_off in
  let self := {| name := py "gpu"; _handler := None;
                 power_usages := []; cur_epoch := (-1)%Z |} in
  exists e,
    error_by_name table (name self) = Some e
    /\ collect_power_usage table 1 (self, 1)
       = (Raise e,
          ({| name := py "gpu"; _handler := None; power_usages := [[]];
              cur_epoch := 1 |}, 1)).
Proof.
  apply (@collect_power_usage_unresolved Fake.World
           (components Fake.nvidia_off Fake.intel_off)
           {| name := py "gpu"; _handler := None;
              power_usages := []; cur_epoch := (-1)%Z |} 1 1);
    simpl; auto; lia.
Defined.

Example gpu_sample_without_handler :
  collect_power_usage (components Fake.nvidia_off Fake.intel_off) 1
    ({| name := py "gpu"; _handler := None; power_usages := [];
        cur_epoch := (-1)%Z |}, 1)
  = (Raise (GPUError (py "No GPU(s) available.")),
     ({| name := py "gpu"; _handler := None; power_usages := [[]];
         cur_epoch := 1 |}, 1)).
Proof. reflexivity. Qed.

(** ** Buckets *)

Lemma append_at_last {A} (r : A) (rest : list (list A)) (b : list A) :
  append_at (List.length rest) r (b :: rest)
  = removelast (b :: rest) ++ [last (b :: rest) [] ++ [r]].
Proof.
  revert b; induction rest as [|b' rest IH]; intros b; [reflexivity|].
  change (append_at (List.length (b' :: rest)) r (b :: b' :: rest))
    with (b :: append_at (List.length rest) r (b' :: rest)).
  rewrite IH; reflexivity.
Qed.

#[local] Arguments append_at : simpl never.

Section Sampling.

Variable World : Type.
Variable registry : list (comp World).

(** One call with an epoch of at least 1, on a component with a handler and
    with a bucket to append to. *)
Lemma collect_power_usage_step (self : Component World) (h : Handler.t World)
  (w w' : World) (epoch : Z) (r : reading) :
  _handler self = Some h ->
  (1 <= epoch)%Z ->
  (epoch = cur_epoch self -> power_usages self <> []) ->
  Handler.power_usage h w = (r, w') ->
  collect_power_usage registry epoch (self, w)
  = (Return tt,
     ({| name := name self; _handler := _handler self;
         power_usages :=
           Inv.append_to_last r
             (if (epoch =? cur_epoch self)%Z then power_usages self
              else power_usages self ++ [[]]);
         cur_epoch := epoch |}, w')).
Proof.
  intros Hh Hge Hne Hr; unfold collect_power_usage.
  destruct (Z.ltb_spec epoch 1) as [Hlt|_]; [lia|].
  unfold open_bucket, last_bucket, bucket_append, handler; run_monad.
  destruct (Z.eqb_spec epoch (cur_epoch self)) as [E|Hd]; simpl.
  - destruct (power_usages self) as [|b rest] eqn:Ep; [destruct (Hne E eq_refl)|].
    simpl; rewrite Hh; simpl; rewrite Hr; simpl.
    unfold set_power_usages; simpl.
    rewrite Ep, append_at_last, Hh, <- E; reflexivity.
  - destruct (power_usages self ++ [[]]) as [|b rest] eqn:Ep.
    { destruct (power_usages self); discriminate. }
    simpl; rewrite Hh; simpl; rewrite Hr; simpl.
    unfold set_power_usages; simpl.
    rewrite append_at_last, Hh; reflexivity.
Qed.

(** [collect_power_usage] statement by statement. *)
Lemma collect_power_usage_cases (self : Component World) (w : World) (epoch : Z) :
  collect_power_usage registry epoch (self, w)
  = if (epoch <? 1)%Z then (Return tt, (self, w))
    else
      let self1 := Inv.entered epoch self in
      match power_usages self1 with
      | [] => (Raise IndexError, (self1, w))
      | _ :: rest =>
          match _handler self with
          | None =>
              (Raise match error_by_name registry (name self) with
                     | Some e => e
                     | None => TypeError
                     end, (self1, w))
          | Some h =>
              let (r, w') := Handler.power_usage h w in
              (Return tt,
               ({| name := name self; _handler := _handler self;
                   power_usages :=
                     append_at (List.length rest) r (power_usages self1);
                   cur_epoch := cur_epoch self1 |}, w'))
          end
      end.
Proof.
  destruct self as [n oh pu ce]; unfold collect_power_usage, Inv.entered.
  destruct (epoch <? 1)%Z; [reflexivity|].
  unfold open_bucket, last_bucket, bucket_append, handler, set_power_usages,
    set_cur_epoch; run_monad.
  destruct (epoch =? ce)%Z; simpl.
  - destruct pu as [|b rest]; simpl; [reflexivity|].
    destruct oh as [h|]; simpl.
    + destruct (Handler.power_usage h w) as [r w1]; reflexivity.
    + destruct (error_by_name registry n); reflexivity.
  - destruct (pu ++ [[]]) as [|b rest]; simpl; [reflexivity|].
    destruct oh as [h|]; simpl.
    + destruct (Handler.power_usage h w) as [r w1]; reflexivity.
    + destruct (error_by_name registry n); reflexivity.
Qed.

Lemma append_at_not_nil {A} (i : nat) (r : A) (p : list (list A)) :
  p <> [] -> append_at i r p <> [].
Proof.
  destruct p as [|b p]; [contradiction|]; intros _; destruct i; discriminate.
Qed.

Lemma entered_not_nil (epoch : Z) (self : Component World) :
  Inv.consistent self -> (1 <= epoch)%Z -> power_usages (Inv.entered epoch self) <> [].
Proof.
  intros Hc Hge; unfold Inv.entered.
  destruct (Z.eqb_spec epoch (cur_epoch self)) as [E|_]; simpl.
  - destruct Hc as [[Hcur _]|[_ Hp]]; [lia | exact Hp].
  - destruct (power_usages self); discriminate.
Qed.

Lemma entered_cur_epoch (epoch : Z) (self : Component World) :
  cur_epoch (Inv.entered epoch self) = epoch.
Proof.
  unfold Inv.entered; destruct (Z.eqb_spec epoch (cur_epoch self)) as [E|_];
    [symmetry; exact E | reflexivity].
Qed.

(** Whatever the outcome of a call, the component that it leaves is
    consistent when the one it started from was. *)
Lemma collect_power_usage_consistent (self self' : Component World) (w w' : World)
  (epoch : Z) (o : Outcome unit) :
  Inv.consistent self ->
  collect_power_usage registry epoch (self, w) = (o, (self', w')) ->
  Inv.consistent self'.
Proof.
  intros Hc; rewrite collect_power_usage_cases.
  destruct (Z.ltb_spec epoch 1) as [Hlt|Hge].
  { intros E; injection E as _ <- _; exact Hc. }
  pose proof (entered_not_nil Hc Hge) as Hp.
  pose proof (entered_cur_epoch epoch self) as Hcur.
  cbv zeta.
  destruct (power_usages (Inv.entered epoch self)) as [|b rest] eqn:Ep;
    [contradiction|].
  assert (Hent : Inv.consistent (Inv.entered epoch self)).
  { right; rewrite Hcur, Ep; split; [exact Hge | discriminate]. }
  destruct (_handler self) as [h|].
  - destruct (Handler.power_usage h w) as [r w1].
    intros E; injection E as _ <- _.
    right; simpl; rewrite Hcur; split; [exact Hge|].
    apply append_at_not_nil; discriminate.
  - intros E; injection E as _ <- _; exact Hent.
Qed.

(** A component is consistent when [Component(name)] returns it. *)
Lemma init_consistent (name : str) (w w' : World) (self : Component World) :
  __init__ registry name w = (Return self, w') -> Inv.consistent self.
Proof.
  unfold __init__, _determine_handler.
  destruct (mem name (component_names registry)); simpl; [|discriminate].
  destruct (handlers_by_name registry name) as [hs|]; [|discriminate].
  run_monad.
  destruct (first_available_returns hs w) as (o & w1 & ->).
  intros E; injection E as <- _; left; split; reflexivity.
Qed.

(** The component that [Component(name)] returns carries the name, which is
    a registered one. *)
Lemma init_name (n : str) (w w' : World) (self : Component World) :
  __init__ registry n w = (Return self, w') ->
  name self = n /\ In n (component_names registry).
Proof.
  unfold __init__, _determine_handler.
  destruct (mem n (component_names registry)) eqn:Hm; simpl; [|discriminate].
  destruct (handlers_by_name registry n) as [hs|]; [|discriminate].
  run_monad.
  destruct (first_available_returns hs w) as (o & w1 & ->).
  intros E; injection E as <- _; split; [reflexivity | apply mem_In, Hm].
Qed.

(** [devices], [init] and [shutdown] leave the component as it is, whatever
    their outcome. *)
Lemma handler_calls_keep_component (self self' : Component World) (w w' : World) :
  (forall o, devices registry (self, w) = (o, (self', w')) -> self' = self)
  /\ (forall o, init registry (self, w) = (o, (self', w')) -> self' = self)
  /\ (forall o, shutdown registry (self, w) = (o, (self', w')) -> self' = self).
Proof.
  unfold devices, init, shutdown, handler; run_monad.
  destruct (_handler self) as [h|]; simpl.
  - destruct (Handler.devices h w), (Handler.init h w), (Handler.shutdown h w).
    repeat split; intros o E; injection E as _ <- _; reflexivity.
  - destruct (error_by_name registry (name self));
      repeat split; intros o E; injection E as _ <- _; reflexivity.
Qed.

End Sampling.

(** C2: on a consistent component with a resolved handler,
    [collect_power_usage(epoch)] with an epoch of at least 1 returns; it adds
    an empty bucket at the end of [power_usages] exactly when [epoch] is not
    the marker, sets the marker to [epoch], and appends to the last bucket
    the reading that the handler gives at the time of the call.  On a
    component as constructed, three calls for epoch 1 and then two for epoch
    2 leave exactly two buckets, of 3 and of 2 readings. *)
Theorem collect_power_usage_resolved (World : Type) (registry : list (comp World))
  (self : Component World) (h : Handler.t World) :
  _handler self = Some h ->
  (forall (w w' : World) (epoch : Z) (r : reading),
      Inv.consistent self ->
      (1 <= epoch)%Z ->
      Handler.power_usage h w = (r, w') ->
      collect_power_usage registry epoch (self, w)
      = (Return tt,
         ({| name := name self; _handler := _handler self;
             power_usages :=
               Inv.append_to_last r
                 (if (epoch =? cur_epoch self)%Z then power_usages self
                  else power_usages self ++ [[]]);
             cur_epoch := epoch |}, w')))
  /\ (forall w : World,
         power_usages self = [] ->
         cur_epoch self = (-1)%Z ->
         exists self' w',
           (collect_power_usage registry 1 ;; collect_power_usage registry 1 ;;
            collect_power_usage registry 1 ;; collect_power_usage registry 2 ;;
            collect_power_usage registry 2) (self, w)
           = (Return tt, (self', w'))
           /\ List.map (@List.length reading) (power_usages self') = [3; 2]).
Proof.
  intros Hh; split.
  - intros w w' epoch r Hc Hge Hr.
    apply collect_power_usage_step with (h := h); try assumption.
    intros E; destruct Hc as [[Hcur _]|[_ Hp]]; [lia | exact Hp].
  - intros w Hp Hcur.
    destruct self as [n oh pu ce]; simpl in Hh, Hp, Hcur; subst oh pu ce.
    unfold bind.
    rewrite collect_power_usage_cases; unfold append_at;
      cbn -[collect_power_usage].
    destruct (Handler.power_usage h w) as [r1 w1].
    rewrite collect_power_usage_cases; unfold append_at;
      cbn -[collect_power_usage].
    destruct (Handler.power_usage h w1) as [r2 w2].
    rewrite collect_power_usage_cases; unfold append_at;
      cbn -[collect_power_usage].
    destruct (Handler.power_usage h w2) as [r3 w3].
    rewrite collect_power_usage_cases; unfold append_at;
      cbn -[collect_power_usage].
    destruct (Handler.power_usage h w3) as [r4 w4].
    rewrite collect_power_usage_cases; unfold append_at;
      cbn -[collect_power_usage].
    destruct (Handler.power_usage h w4) as [r5 w5].
    eexists; eexists; split; reflexivity.
Qed.

Lemma collect_power_usage_resolved_witness :
  let table := components Fake.nvidia_on Fake.intel_on in
  let self := {| name := py "gpu"; _handler := Some Fake.nvidia_on;
                 power_usages := []; cur_epoch := (-1)%Z |} in
  collect_power_usage table 1 (self, 1)
  = (Return tt,
     ({| name := py "gpu"; _handler := Some Fake.nvidia_on;
         power_usages := [[[Np.num 101]]]; cur_epoch := 1 |}, 2))
  /\ exists self' w',
       (collect_power_usage table 1 ;; collect_power_usage table 1 ;;
        collect_power_usage table 1 ;; collect_power_usage table 2 ;;
        collect_power_usage table 2) (self, 1)
       = (Return tt, (self', w'))
       /\ List.map (@List.length reading) (power_usages self') = [3; 2].
Proof.
  intros table self.
  destruct (@collect_power_usage_resolved Fake.World table self Fake.nvidia_on
              eq_refl) as [Hstep Hrun].
  split.
  - apply (Hstep 1 2 1%Z [Np.num 101]).
    + left; split; reflexivity.
    + lia.
    + reflexivity.
  - apply (Hrun 1); reflexivity.
Defined.

(** The buckets after the five calls, with the readings of the example
    handler. *)
Example collect_power_usage_five_calls :
  let table := components Fake.nvidia_on Fake.intel_on in
  let self := {| name := py "gpu"; _handler := Some Fake.nvidia_on;
                 power_usages := []; cur_epoch := (-1)%Z |} in
  (collect_power_usage table 1 ;; collect_power_usage table 1 ;;
   collect_power_usage table 1 ;; collect_power_usage table 2 ;;
   collect_power_usage table 2) (self, 1)
  = (Return tt,
     ({| name := py "gpu"; _handler := Some Fake.nvidia_on;
         power_usages := [ [[Np.num 101]; [Np.num 102]; [Np.num 103]];
                           [[Np.num 104]; [Np.num 105]] ];
         cur_epoch := 2 |}, 6)).
Proof. vm_compute. reflexivity. Qed.

(** ** The factory *)

Section Factory.

Variable World : Type.
Variable registry : list (comp World).

(** A comprehension over registered names constructs one component per name,
    in order, and raises nothing. *)
Lemma comprehension_registered (names : list str) (w : World) :
  (forall n, In n names -> In n (component_names registry)) ->
  exists cs w',
    comprehension (__init__ registry) names w = (Return cs, w')
    /\ List.map (@name World) cs = names
    /\ Forall (fun c => power_usages c = [] /\ cur_epoch c = (-1)%Z) cs.
Proof.
  revert w; induction names as [|n names IH]; intros w Hreg; simpl.
  - exists [], w; repeat split; constructor.
  - destruct (init_registered registry n w (Hreg n (or_introl eq_refl)))
      as (hs & o & w1 & _ & _ & E).
    destruct (IH w1 (fun m Hm => Hreg m (or_intror Hm)))
      as (cs & w2 & Ecs & Hnames & Hfresh).
    eexists; exists w2; run_monad; rewrite E, Ecs; repeat split.
    + simpl; rewrite Hnames; reflexivity.
    + constructor; [split; reflexivity | exact Hfresh].
Qed.

End Factory.

(** C8: when the selection string, stripped of surrounding whitespace and
    with its spaces removed, is "all", [create_components] returns the
    components that [Component(name)] constructs for the names of the
    registry, one per name and in the order of the registry. *)
Theorem create_components_all (World : Type) (registry : list (comp World))
  (comp_str : str) (w : World) :
  replace space (strip comp_str) = py "all" ->
  exists cs w',
    create_components registry comp_str w = (Return cs, w')
    /\ comprehension (__init__ registry) (component_names registry) w
       = (Return cs, w')
    /\ List.map (@name World) cs = component_names registry
    /\ Forall (fun c => power_usages c = [] /\ cur_epoch c = (-1)%Z) cs.
Proof.
  intros Hall.
  destruct (comprehension_registered registry (component_names registry) w
              (fun n Hn => Hn)) as (cs & w' & E & Hnames & Hfresh).
  exists cs, w'; repeat split; try assumption.
  unfold create_components; rewrite Hall; exact E.
Qed.

Lemma create_components_all_witness :
  replace space (strip (py " all ")) = py "all"
  /\ exists cs w',
       create_components (components Fake.nvidia_on Fake.intel_off) (py " all ") 0
       = (Return cs, w')
       /\ comprehension (__init__ (components Fake.nvidia_on Fake.intel_off))
            (component_names (components Fake.nvidia_on Fake.intel_off)) 0
          = (Return cs, w')
       /\ List.map (@name Fake.World) cs
          = component_names (components Fake.nvidia_on Fake.intel_off)
       /\ Forall (fun c => power_usages c = [] /\ cur_epoch c = (-1)%Z) cs.
Proof.
  split; [reflexivity|].
  apply create_components_all; reflexivity.
Defined.

Example spaced_all_selects_every_type :
  create_components (components Fake.nvidia_on Fake.intel_off)
    (List.map N_of_nat [9; 32; 97; 32; 108; 108; 10; 160]) 0
  = (Return [ {| name := py "gpu"; _handler := Some Fake.nvidia_on;
                 power_usages := []; cur_epoch := (-1)%Z |};
              {| name := py "cpu"; _handler := None;
                 power_usages := []; cur_epoch := (-1)%Z |} ], 2).
Proof. reflexivity. Qed.

Example listed_names_in_given_order :
  create_components (components Fake.nvidia_on Fake.intel_off) (py "cpu, gpu") 0
  = (Return [ {| name := py "cpu"; _handler := None;
                 power_usages := []; cur_epoch := (-1)%Z |};
              {| name := py "gpu"; _handler := Some Fake.nvidia_on;
                 power_usages := []; cur_epoch := (-1)%Z |} ], 2).
Proof. reflexivity. Qed.

(** ** Energy *)

Section Energy.

Variable np : Numpy.t.

#[local] Abbreviation computes :=
  (fun (bt : bucket * Qc) (v : Numpy.scalar np) =>
     WithNumpy.epoch_value np (fst bt) (snd bt) = Return v).

(** When the computation of every pair returns, the loop returns the values
    in the order of the pairs, after those it started with. *)
Lemma energy_loop_returns (pairs : list (bucket * Qc))
  (vs acc : list (Numpy.scalar np)) :
  Forall2 computes pairs vs ->
  WithNumpy.energy_loop np pairs acc = Return (acc ++ vs).
Proof.
  intros H; revert acc; induction H as [|[b t] v pairs vs Hv _ IH];
    intros acc; simpl.
  - rewrite app_nil_r; reflexivity.
  - simpl in Hv; rewrite Hv, IH, <- app_assoc; reflexivity.
Qed.

(** The loop ends with the exception of the first pair whose computation
    raises. *)
Lemma energy_loop_raises (pre post : list (bucket * Qc)) (b : bucket) (t : Qc)
  (e : exn) (vs acc : list (Numpy.scalar np)) :
  Forall2 computes pre vs ->
  WithNumpy.epoch_value np b t = Raise e ->
  WithNumpy.energy_loop np (pre ++ (b, t) :: post) acc = Raise e.
Proof.
  intros H He; revert acc; induction H as [|[b' t'] v pre vs Hv _ IH];
    intros acc; simpl.
  - rewrite He; reflexivity.
  - simpl in Hv; rewrite Hv; apply IH.
Qed.

Lemma computed_values (pairs : list (bucket * Qc)) :
  Forall (fun bt => exists v, computes bt v) pairs ->
  exists vs, Forall2 computes pairs vs.
Proof.
  induction 1 as [|bt pairs (v & Hv) _ (vs & Hvs)].
  - exists []; constructor.
  - exists (v :: vs); constructor; assumption.
Qed.

Lemma computed_value_at (pairs : list (bucket * Qc)) (vs : list (Numpy.scalar np))
  (i : nat) (d : bucket * Qc) :
  Forall2 computes pairs vs ->
  i < List.length pairs ->
  exists v, nth_error vs i = Some v /\ computes (nth i pairs d) v.
Proof.
  intros H; revert i; induction H as [|bt v pairs vs Hv _ IH]; intros i Hi;
    simpl in Hi; [lia|].
  destruct i as [|i]; [exists v; split; [reflexivity | exact Hv]|].
  apply IH; lia.
Qed.

Lemma combine_truncated {A B} (l : list A) (l' : list B) :
  let m := Nat.min (List.length l) (List.length l') in
  combine (firstn m l) (firstn m l') = combine l l'.
Proof.
  revert l'; induction l as [|x l IH]; intros [|y l']; simpl; try reflexivity.
  f_equal; apply IH.
Qed.

Lemma combine_nth_min {A B} (l : list A) (l' : list B) (i : nat) (x : A) (y : B) :
  i < Nat.min (List.length l) (List.length l') ->
  nth i (combine l l') (x, y) = (nth i l x, nth i l' y).
Proof.
  revert l' i; induction l as [|a l IH]; intros [|b l'] i; simpl; try lia.
  destruct i; [reflexivity | intros H; apply IH; lia].
Qed.

End Energy.

(** [energy_usage] with the exact arithmetic of [Np] is [energy_usage] over
    the numpy [Numpy.exact]. *)
Lemma energy_usage_exact (World : Type) (self : Component World)
  (epoch_times : list Qc) :
  energy_usage self epoch_times
  = WithNumpy.energy_usage Numpy.exact self epoch_times.
Proof.
  unfold energy_usage, WithNumpy.energy_usage.
  assert (H : forall pairs acc,
             energy_loop pairs acc
             = WithNumpy.energy_loop Numpy.exact pairs acc).
  { induction pairs as [|[b t] pairs IH]; intros acc; simpl; [reflexivity|].
    unfold WithNumpy.epoch_value; simpl.
    destruct (Np.mean b); [apply IH | reflexivity]. }
  apply H.
Qed.

(** C7: whatever numpy computes, [energy_usage] pairs the buckets with the
    times up to the length of the shorter sequence and ignores what lies
    beyond it.  When the computation of every pair returns, it returns one
    value per pair, as many as the shorter sequence is long, the value of
    pair [i] at position [i]. *)
Theorem energy_usage_pairs (np : Numpy.t) (World : Type) (self : Component World)
  (epoch_times : list Qc) :
  Forall (fun bt => exists v,
            WithNumpy.epoch_value np (fst bt) (snd bt) = Return v)
         (combine (power_usages self) epoch_times) ->
  let m := Nat.min (List.length (power_usages self)) (List.length epoch_times) in
  (exists rs,
      WithNumpy.energy_usage np self epoch_times = Return rs
      /\ List.length rs = m
      /\ forall i, i < m ->
           exists v,
             nth_error rs i = Some v
             /\ WithNumpy.epoch_value np (nth i (power_usages self) [])
                  (nth i epoch_times 0%Qc) = Return v)
  /\ WithNumpy.energy_usage np
       {| name := name self; _handler := _handler self;
          power_usages := firstn m (power_usages self);
          cur_epoch := cur_epoch self |} (firstn m epoch_times)
     = WithNumpy.energy_usage np self epoch_times.
Proof.
  intros Hall m; split.
  - destruct (@computed_values np _ Hall) as (vs & Hvs).
    exists vs; split; [exact (@energy_loop_returns np _ vs [] Hvs)|].
    assert (Hlen : List.length vs = m).
    { rewrite <- (Forall2_length Hvs); apply length_combine. }
    split; [exact Hlen|].
    intros i Hi.
    destruct (@computed_value_at np _ vs i ([], 0%Qc) Hvs) as (v & Hv & Hc).
    { rewrite length_combine; exact Hi. }
    exists v; split; [exact Hv|].
    rewrite combine_nth_min in Hc by exact Hi; exact Hc.
  - unfold WithNumpy.energy_usage; subst m; simpl.
    rewrite combine_truncated; reflexivity.
Qed.

Lemma energy_usage_pairs_witness :
  let self := {| name := py "gpu"; _handler := Some Fake.nvidia_on;
                 power_usages := [ [[Np.num 100]; [Np.num 300]]; [];
                                   [[Np.num 7]; []] ];
                 cur_epoch := 3 |} in
  let epoch_times := [Np.num 3600; Np.num 10] in
  Forall (fun bt => exists v,
            WithNumpy.epoch_value Numpy.exact (fst bt) (snd bt) = Return v)
         (combine (power_usages self) epoch_times)
  /\ (exists rs,
        WithNumpy.energy_usage Numpy.exact self epoch_times = Return rs
        /\ List.length rs = 2
        /\ forall i, i < 2 ->
             exists v,
               nth_error rs i = Some v
               /\ WithNumpy.epoch_value Numpy.exact
                    (nth i (power_usages self) [])
                    (nth i epoch_times 0%Qc) = Return v).
Proof.
  intros self epoch_times.
  assert (H : Forall (fun bt => exists v,
                        WithNumpy.epoch_value Numpy.exact (fst bt) (snd bt)
                        = Return v)
                (combine (power_usages self) epoch_times)).
  { repeat constructor; eexists; reflexivity. }
  split; [exact H|].
  exact (proj1 (@energy_usage_pairs Numpy.exact _ self epoch_times H)).
Defined.

(** Four buckets and three times: three values. *)
Example energy_usage_three_pairs :
  WithNumpy.energy_usage Numpy.exact
    {| name := py "gpu"; _handler := @None (Handler.t Fake.World);
       power_usages := [[]; []; []; []]; cur_epoch := 4 |}
    [Np.num 1; Np.num 2; Np.num 3]
  = Return [Np.NaN; Np.NaN; Np.NaN].
Proof. reflexivity. Qed.

(** * Further properties of the module *)

(** ** The registry: look-up by name *)

(** X1: both look-ups answer from the first dictionary of the table that
    carries the name; later dictionaries with the same name are never
    reached. *)
Theorem lookups_first_match (World : Type) (pre post : list (comp World))
  (c : comp World) :
  ~ In (comp_name c) (component_names pre) ->
  error_by_name (pre ++ c :: post) (comp_name c) = Some (comp_error c)
  /\ handlers_by_name (pre ++ c :: post) (comp_name c) = Some (comp_handlers c).
Proof.
  unfold error_by_name, handlers_by_name, component_names.
  induction pre as [|p pre IH]; simpl; intros Hn.
  - rewrite eqb_refl; split; reflexivity.
  - destruct (eqb_spec (comp_name p) (comp_name c)) as [E|_].
    + exfalso; apply Hn; left; exact E.
    + apply IH; intros Hin; apply Hn; right; exact Hin.
Qed.

Lemma lookups_first_match_witness :
  let gpu := {| comp_name := py "gpu"; comp_error := GPUError (py "first");
                comp_handlers := [Fake.nvidia_on] |} in
  let cpu := {| comp_name := py "cpu"; comp_error := CPUError (py "second");
                comp_handlers := [Fake.intel_off; Fake.intel_on] |} in
  let cpu' := {| comp_name := py "cpu"; comp_error := CPUError (py "third");
                 comp_handlers := [] |} in
  ~ In (comp_name cpu) (component_names [gpu])
  /\ error_by_name ([gpu] ++ cpu :: [cpu']) (py "cpu")
     = Some (CPUError (py "second"))
  /\ handlers_by_name ([gpu] ++ cpu :: [cpu']) (py "cpu")
     = Some [Fake.intel_off; Fake.intel_on].
Proof.
  intros gpu cpu cpu'.
  assert (H : ~ In (comp_name cpu) (component_names [gpu])).
  { apply mem_not_In; reflexivity. }
  split; [exact H | exact (@lookups_first_match _ [gpu] [cpu'] cpu H)].
Defined.

(** ** The factory: listed names *)

Section ListedNames.

Variable World : Type.
Variable registry : list (comp World).

(** A comprehension stops at the first name that is not registered; the
    hardware has then been asked for the names before it only. *)
Lemma comprehension_unregistered (pre post : list str) (bad : str) (w : World) :
  (forall n, In n pre -> In n (component_names registry)) ->
  ~ In bad (component_names registry) ->
  exists cs w1,
    comprehension (__init__ registry) pre w = (Return cs, w1)
    /\ comprehension (__init__ registry) (pre ++ bad :: post) w
       = (Raise (ComponentNameError (ComponentNameError_msg bad)), w1).
Proof.
  intros Hpre Hbad.
  destruct (comprehension_registered registry pre w Hpre) as (cs & w1 & E & _).
  exists cs, w1; split; [exact E|].
  clear Hpre; revert w cs E; induction pre as [|n pre IH]; intros w cs; simpl.
  - intros E; injection E as _ <-.
    run_monad; rewrite (init_unregistered registry bad w Hbad); reflexivity.
  - run_monad.
    destruct (__init__ registry n w) as [[c|e] w0]; [|discriminate].
    destruct (comprehension (__init__ registry) pre w0) as [[cs0|e] w2] eqn:E0;
      [|discriminate].
    intros E; injection E as _ <-.
    specialize (IH w0 cs0 E0); unfold bind in IH; rewrite IH; reflexivity.
Qed.

End ListedNames.

(** X3: when the stripped string without its spaces is not "all" and each of
    its comma-separated pieces is a registered name, [create_components]
    returns one new component per piece, in the order of the string,
    repeated names included. *)
Theorem create_components_listed (World : Type) (registry : list (comp World))
  (comp_str : str) (w : World) :
  replace space (strip comp_str) <> py "all" ->
  (forall n, In n (split comma (replace space (strip comp_str))) ->
             In n (component_names registry)) ->
  exists cs w',
    create_components registry comp_str w = (Return cs, w')
    /\ List.map (@name World) cs = split comma (replace space (strip comp_str))
    /\ Forall (fun c => power_usages c = [] /\ cur_epoch c = (-1)%Z) cs.
Proof.
  intros Hall Hreg.
  destruct (comprehension_registered registry _ w Hreg)
    as (cs & w' & E & Hnames & Hfresh).
  exists cs, w'; repeat split; try assumption.
  unfold create_components.
  apply eqb_neq in Hall; rewrite Hall; exact E.
Qed.

Lemma create_components_listed_witness :
  let table := components Fake.nvidia_on Fake.intel_off in
  replace space (strip (py " gpu, cpu ,gpu")) <> py "all"
  /\ exists cs w',
       create_components table (py " gpu, cpu ,gpu") 0 = (Return cs, w')
       /\ List.map (@name Fake.World) cs = [py "gpu"; py "cpu"; py "gpu"]
       /\ Forall (fun c => power_usages c = [] /\ cur_epoch c = (-1)%Z) cs.
Proof.
  intros table.
  assert (H : replace space (strip (py " gpu, cpu ,gpu")) <> py "all")
    by discriminate.
  split; [exact H|].
  apply (@create_components_listed _ table (py " gpu, cpu ,gpu") 0 H).
  intros n Hn; apply mem_In.
  destruct Hn as [<-|[<-|[<-|[]]]]; reflexivity.
Defined.

(** X4: when the stripped string without its spaces is not "all",
    [create_components] raises [ComponentNameError] for the first
    comma-separated piece that is not a registered name; the components for
    the pieces before it were constructed, so the hardware was asked for
    them, and no list is returned. *)
Theorem create_components_unregistered (World : Type) (registry : list (comp World))
  (comp_str : str) (w : World) (pre post : list str) (bad : str) :
  replace space (strip comp_str) <> py "all" ->
  split comma (replace space (strip comp_str)) = pre ++ bad :: post ->
  (forall n, In n pre -> In n (component_names registry)) ->
  ~ In bad (component_names registry) ->
  exists cs w1,
    comprehension (__init__ registry) pre w = (Return cs, w1)
    /\ create_components registry comp_str w
       = (Raise (ComponentNameError (ComponentNameError_msg bad)), w1).
Proof.
  intros Hall Hsplit Hpre Hbad.
  destruct (@comprehension_unregistered _ registry pre post bad w Hpre Hbad)
    as (cs & w1 & E & Er).
  exists cs, w1; split; [exact E|].
  unfold create_components.
  apply eqb_neq in Hall; rewrite Hall, Hsplit; exact Er.
Qed.

Lemma create_components_unregistered_witness :
  let table := components Fake.nvidia_on Fake.intel_off in
  exists cs w1,
    comprehension (__init__ table) [py "gpu"] 0 = (Return cs, w1)
    /\ create_components table (py "gpu,,cpu") 0
       = (Raise (ComponentNameError (ComponentNameError_msg (py ""))), w1).
Proof.
  intros table.
  apply (@create_components_unregistered _ table (py "gpu,,cpu") 0
           [py "gpu"] [py "cpu"] (py "")).
  - discriminate.
  - reflexivity.
  - intros n [<-|[]]; apply mem_In; reflexivity.
  - apply mem_not_In; reflexivity.
Defined.

(** The empty selection is the one piece "", which is not a name of the
    module's table. *)
Example empty_selection_raises :
  create_components (components Fake.nvidia_on Fake.intel_on) (py "  ") 5
  = (Raise (ComponentNameError (py "No component found with name ''.")), 5).
Proof. reflexivity. Qed.

(** ** The factory: spaces *)

Module SpaceFacts.

Import Caller.

Lemma with_a_space_lstrip (a b : str) :
  with_a_space a b -> with_a_space (lstrip a) (lstrip b).
Proof.
  intros [->|(u & v & -> & ->)]; [left; reflexivity|].
  induction u as [|c u IH]; simpl.
  - left; reflexivity.
  - destruct (isspace c); [exact IH|].
    right; exists (c :: u), v; split; reflexivity.
Qed.

Lemma with_a_space_rev (a b : str) :
  with_a_space a b -> with_a_space (rev a) (rev b).
Proof.
  intros [->|(u & v & -> & ->)]; [left; reflexivity|].
  right; exists (rev v), (rev u); split.
  - rewrite rev_app_distr; simpl; rewrite <- app_assoc; reflexivity.
  - apply rev_app_distr.
Qed.

Lemma with_a_space_strip (a b : str) :
  with_a_space a b -> with_a_space (strip a) (strip b).
Proof.
  intros H; unfold strip, rstrip.
  apply with_a_space_rev, with_a_space_lstrip, with_a_space_rev,
    with_a_space_lstrip, H.
Qed.

Lemma with_a_space_replace (a b : str) :
  with_a_space a b -> replace space a = replace space b.
Proof.
  intros [->|(u & v & -> & ->)]; [reflexivity|].
  unfold replace; rewrite !filter_app; reflexivity.
Qed.

End SpaceFacts.

(** X5: a space, wherever it stands in the selection string, makes no
    difference to what [create_components] does. *)
Theorem create_components_ignores_space (World : Type) (registry : list (comp World))
  (u v : str) (w : World) :
  create_components registry (u ++ space :: v) w
  = create_components registry (u ++ v) w.
Proof.
  unfold create_components.
  rewrite (@SpaceFacts.with_a_space_replace (strip (u ++ space :: v))
             (strip (u ++ v))); [reflexivity|].
  apply SpaceFacts.with_a_space_strip; right; exists u, v; split; reflexivity.
Qed.

(** ** Sampling: what a call keeps *)

Section AppendOnly.

Lemma append_at_length {A} (i : nat) (r : A) (p : list (list A)) :
  List.length (append_at i r p) = List.length p.
Proof.
  revert i; induction p as [|b p IH]; intros [|i]; simpl; auto.
Qed.

Lemma append_at_nth {A} (i k : nat) (r : A) (p : list (list A)) :
  exists extra, nth k (append_at i r p) [] = nth k p [] ++ extra.
Proof.
  revert i k; induction p as [|b p IH]; intros i k.
  - exists []; destruct i, k; reflexivity.
  - destruct i as [|i]; simpl.
    + destruct k as [|k]; [exists [r] | exists []; rewrite app_nil_r];
        reflexivity.
    + destruct k as [|k]; [exists []; rewrite app_nil_r; reflexivity|].
      apply IH.
Qed.

Lemma firstn_append_at {A} (i n : nat) (r : A) (p : list (list A)) :
  n <= i -> firstn n (append_at i r p) = firstn n p.
Proof.
  revert i n; induction p as [|b p IH]; intros i n Hn.
  - destruct i; reflexivity.
  - destruct i as [|i]; simpl.
    + replace n with 0 by lia; reflexivity.
    + destruct n as [|n]; [reflexivity|]; simpl; f_equal; apply IH; lia.
Qed.

(** What a call can make of the list of buckets. *)
Lemma collect_power_usage_buckets (World : Type) (registry : list (comp World))
  (self self' : Component World) (w w' : World) (epoch : Z) (o : Outcome unit) :
  collect_power_usage registry epoch (self, w) = (o, (self', w')) ->
  name self' = name self /\ _handler self' = _handler self
  /\ exists q,
       (q = power_usages self \/ q = power_usages self ++ [[]])
       /\ (power_usages self' = q
           \/ exists r, power_usages self'
                        = append_at (List.length q - 1) r q).
Proof.
  rewrite collect_power_usage_cases.
  destruct (epoch <? 1)%Z.
  { intros E; injection E as _ <- _; repeat split.
    exists (power_usages self); auto. }
  cbv zeta.
  assert (Hq : power_usages (Inv.entered epoch self) = power_usages self
               \/ power_usages (Inv.entered epoch self)
                  = power_usages self ++ [[]]).
  { unfold Inv.entered; destruct (epoch =? cur_epoch self)%Z; auto. }
  assert (Hn : name (Inv.entered epoch self) = name self
               /\ _handler (Inv.entered epoch self) = _handler self).
  { unfold Inv.entered; destruct (epoch =? cur_epoch self)%Z; auto. }
  destruct (power_usages (Inv.entered epoch self)) as [|b rest] eqn:Ep.
  { intros E; injection E as _ <- _.
    destruct Hn as [Hn1 Hn2]; repeat split; try assumption.
    exists []; rewrite Ep; split; [|left; reflexivity].
    destruct Hq as [<-|<-]; auto. }
  destruct (_handler self) as [h|] eqn:Hh.
  - destruct (Handler.power_usage h w) as [r w1].
    intros E; injection E as _ <- _; simpl.
    repeat split.
    exists (b :: rest); split; [destruct Hq as [<-|<-]; auto|].
    right; exists r; simpl; rewrite Nat.sub_0_r; reflexivity.
  - intros E; injection E as _ <- _.
    destruct Hn as [Hn1 Hn2]; repeat split; try congruence.
    exists (b :: rest); rewrite Ep; split; [|left; reflexivity].
    destruct Hq as [<-|<-]; auto.
Qed.

End AppendOnly.

(** X6: whatever its outcome, a call of [collect_power_usage] leaves the
    name and the selected handler as they are, adds at most one bucket, and
    takes nothing away: every bucket that was there keeps its place and its
    samples, with new samples only after them. *)
Theorem collect_power_usage_append_only (World : Type) (registry : list (comp World))
  (self self' : Component World) (w w' : World) (epoch : Z) (o : Outcome unit) :
  collect_power_usage registry epoch (self, w) = (o, (self', w')) ->
  name self' = name self
  /\ _handler self' = _handler self
  /\ List.length (power_usages self) <= List.length (power_usages self')
     <= S (List.length (power_usages self))
  /\ forall i, i < List.length (power_usages self) ->
       exists extra,
         nth i (power_usages self') [] = nth i (power_usages self) [] ++ extra.
Proof.
  intros E.
  destruct (@collect_power_usage_buckets _ _ _ _ _ _ _ _ E)
    as (Hn & Hh & q & Hq & Hp).
  split; [exact Hn|]; split; [exact Hh|].
  assert (Hlen : List.length (power_usages self') = List.length q).
  { destruct Hp as [->|(r & ->)]; [reflexivity | apply append_at_length]. }
  assert (Hql : List.length (power_usages self) <= List.length q
                <= S (List.length (power_usages self))).
  { destruct Hq as [->| ->]; [lia|]. rewrite length_app; simpl; lia. }
  split; [lia|].
  intros i Hi.
  assert (Hqi : nth i q [] = nth i (power_usages self) []).
  { destruct Hq as [->| ->]; [reflexivity | apply app_nth1; exact Hi]. }
  destruct Hp as [->|(r & ->)].
  - exists []; rewrite app_nil_r; exact Hqi.
  - destruct (append_at_nth (List.length q - 1) i r q) as (extra & Hx).
    exists extra; rewrite Hx, Hqi; reflexivity.
Qed.

Lemma collect_power_usage_append_only_witness :
  let table := components Fake.nvidia_on Fake.intel_on in
  let self := {| name := py "gpu"; _handler := Some Fake.nvidia_on;
                 power_usages := [[[Np.num 1]]; [[Np.num 2]]]; cur_epoch := 2 |} in
  let self' := {| name := py "gpu"; _handler := Some Fake.nvidia_on;
                  power_usages := [[[Np.num 1]]; [[Np.num 2]; [Np.num 103]]];
                  cur_epoch := 2 |} in
  collect_power_usage table 2 (self, 3) = (Return tt, (self', 4))
  /\ List.length (power_usages self) <= List.length (power_usages self')
     <= S (List.length (power_usages self)).
Proof.
  intros table self self'.
  assert (E : collect_power_usage table 2 (self, 3) = (Return tt, (self', 4)))
    by reflexivity.
  split; [exact E|].
  exact (proj1 (proj2 (proj2 (@collect_power_usage_append_only _ _ _ _ _ _ _ _ E)))).
Defined.

(** ** Sampling without a handler *)

(** X7: on a component without a handler, repeating a call of
    [collect_power_usage] with the same epoch has the outcome of the first
    call and changes nothing more: a failed call is not made worse by
    retrying it. *)
Theorem collect_power_usage_retry (World : Type) (registry : list (comp World))
  (self self1 : Component World) (w w1 : World) (epoch : Z) (o : Outcome unit) :
  _handler self = None ->
  collect_power_usage registry epoch (self, w) = (o, (self1, w1)) ->
  collect_power_usage registry epoch (self1, w1) = (o, (self1, w1)).
Proof.
  intros Hh; rewrite !collect_power_usage_cases.
  destruct (epoch <? 1)%Z.
  { intros E; injection E as <- <- <-; reflexivity. }
  cbv zeta; unfold Inv.entered.
  destruct (Z.eqb_spec epoch (cur_epoch self)) as [Ec|Hc].
  - rewrite Hh.
    destruct (power_usages self) as [|b rest] eqn:Ep;
      intros E; injection E as <- <- <-;
      destruct (Z.eqb_spec epoch (cur_epoch self)) as [_|Hc];
      try contradiction; rewrite Ep, ?Hh; reflexivity.
  - simpl; rewrite Hh.
    destruct (power_usages self ++ [[]]) as [|b rest] eqn:Ep.
    { destruct (power_usages self); discriminate. }
    intros E; injection E as <- <- <-; simpl.
    rewrite Z.eqb_refl; simpl; reflexivity.
Qed.

Lemma collect_power_usage_retry_witness :
  let table := components Fake.nvidia_off Fake.intel_off in
  let self : Component Fake.World :=
    {| name := py "cpu"; _handler := None; power_usages := [];
       cur_epoch := (-1)%Z |} in
  let self1 : Component Fake.World :=
    {| name := py "cpu"; _handler := None; power_usages := [[]];
       cur_epoch := 4 |} in
  let o : Outcome unit := Raise (CPUError (py "No CPU(s) available.")) in
  collect_power_usage table 4 (self, 0) = (o, (self1, 0))
  /\ collect_power_usage table 4 (self1, 0) = (o, (self1, 0)).
Proof.
  intros table self self1 o.
  assert (E : collect_power_usage table 4 (self, 0) = (o, (self1, 0)))
    by reflexivity.
  split; [exact E|].
  exact (@collect_power_usage_retry _ table self self1 0 0 4 o eq_refl E).
Defined.

(** X8: on a consistent component of a registered hardware type a call of
    [collect_power_usage] ends in one of two ways only.  It returns, when
    the epoch is below 1 or a handler was resolved; or it raises the
    registered error of the type, when the epoch is at least 1 and no
    handler was resolved, and then the hardware is as before and the
    component has at most the marker moved and an empty bucket added. *)
Theorem collect_power_usage_outcomes (World : Type) (registry : list (comp World))
  (self : Component World) (w : World) (epoch : Z) :
  In (name self) (component_names registry) ->
  Inv.consistent self ->
  exists e,
    error_by_name registry (name self) = Some e
    /\ ((exists s', collect_power_usage registry epoch (self, w) = (Return tt, s'))
        /\ ((epoch < 1)%Z \/ available self = true)
        \/ collect_power_usage registry epoch (self, w)
           = (Raise e, (Inv.entered epoch self, w))
           /\ (1 <= epoch)%Z /\ available self = false).
Proof.
  intros Hin Hc.
  destruct (error_by_name_registered registry (name self) Hin) as (e & He).
  exists e; split; [exact He|].
  rewrite collect_power_usage_cases.
  destruct (Z.ltb_spec epoch 1) as [Hlt|Hge].
  { left; split; [eexists; reflexivity | left; exact Hlt]. }
  cbv zeta.
  pose proof (entered_not_nil Hc Hge) as Hp.
  destruct (power_usages (Inv.entered epoch self)) as [|b rest];
    [contradiction|].
  unfold available; destruct (_handler self) as [h|].
  - left; split; [|right; reflexivity].
    destruct (Handler.power_usage h w) as [r w1]; eexists; reflexivity.
  - right; rewrite He; repeat split; exact Hge.
Qed.

Lemma collect_power_usage_outcomes_witness :
  let table := components Fake.nvidia_off Fake.intel_off in
  let self : Component Fake.World :=
    {| name := py "gpu"; _handler := None; power_usages := [[]];
       cur_epoch := 3 |} in
  exists e,
    error_by_name table (name self) = Some e
    /\ ((exists s', collect_power_usage table 3 (self, 0) = (Return tt, s'))
        /\ ((3 < 1)%Z \/ available self = true)
        \/ collect_power_usage table 3 (self, 0)
           = (Raise e, (Inv.entered 3 self, 0))
           /\ (1 <= 3)%Z /\ available self = false).
Proof.
  intros table self.
  apply (@collect_power_usage_outcomes _ table self 0 3).
  - left; reflexivity.
  - right; split; [simpl; lia | discriminate].
Defined.

(** ** A run of sampling calls *)

Module RunFacts.

Import Caller.

Lemma samples_app (p q : list bucket) : samples (p ++ q) = samples p + samples q.
Proof.
  unfold samples; rewrite map_app, list_sum_app; reflexivity.
Qed.

Lemma append_to_last_length (r : reading) (p : list bucket) :
  p <> [] -> List.length (Inv.append_to_last r p) = List.length p.
Proof.
  intros Hp; unfold Inv.append_to_last.
  destruct (exists_last Hp) as (l & a & ->).
  rewrite removelast_last, last_last, !length_app; reflexivity.
Qed.

Lemma append_to_last_samples (r : reading) (p : list bucket) :
  p <> [] -> samples (Inv.append_to_last r p) = S (samples p).
Proof.
  intros Hp; unfold Inv.append_to_last.
  destruct (exists_last Hp) as (l & a & ->).
  rewrite removelast_last, last_last, !samples_app; unfold samples; simpl.
  rewrite length_app; simpl; lia.
Qed.

Lemma append_to_last_not_nil (r : reading) (p : list bucket) :
  Inv.append_to_last r p <> [].
Proof.
  unfold Inv.append_to_last; destruct (removelast p); discriminate.
Qed.

End RunFacts.

(** X10: on a consistent component with a resolved handler, a loop of
    [collect_power_usage] calls over any sequence of epochs returns.  It
    opens one bucket for every epoch of at least 1 that differs from the
    last such epoch before it (from the marker, at the start), takes one
    sample for every epoch of at least 1 and none for the others, and leaves
    a consistent component with the same handler. *)
Theorem collect_each_counts (World : Type) (registry : list (comp World))
  (epochs : list Z) (self : Component World) (h : Handler.t World) (w : World) :
  _handler self = Some h ->
  Inv.consistent self ->
  exists self' w',
    Caller.collect_each registry epochs (self, w) = (Return tt, (self', w'))
    /\ List.length (power_usages self')
       = List.length (power_usages self)
         + Caller.epoch_changes (cur_epoch self) epochs
    /\ Caller.samples (power_usages self')
       = Caller.samples (power_usages self)
         + List.length (filter (fun e => 1 <=? e)%Z epochs)
    /\ Inv.consistent self'
    /\ _handler self' = Some h.
Proof.
  revert self w; induction epochs as [|e es IH]; intros self w Hh Hc.
  - exists self, w; simpl; repeat split; try assumption; lia.
  - simpl; unfold bind.
    destruct (Z.ltb_spec e 1) as [Hlt|Hge].
    + rewrite collect_power_usage_cases.
      destruct (Z.ltb_spec e 1) as [_|Hge]; [|lia].
      destruct (Z.leb_spec 1 e) as [Hle|_]; [lia|].
      apply IH; assumption.
    + destruct (Handler.power_usage h w) as [r w1] eqn:Hr.
      assert (Hne : e = cur_epoch self -> power_usages self <> []).
      { intros E; destruct Hc as [[Hcur _]|[_ Hp]]; [lia | exact Hp]. }
      rewrite (@collect_power_usage_step _ registry self h w w1 e r
                 Hh Hge Hne Hr).
      set (q := if (e =? cur_epoch self)%Z then power_usages self
                else power_usages self ++ [[]]).
      assert (Hq : q <> []).
      { unfold q; destruct (Z.eqb_spec e (cur_epoch self)) as [E|_];
          [exact (Hne E) | destruct (power_usages self); discriminate]. }
      set (self1 := {| name := name self; _handler := _handler self;
                       power_usages := Inv.append_to_last r q;
                       cur_epoch := e |}).
      destruct (IH self1 w1) as (self' & w' & E & Hlen & Hsam & Hc' & Hh').
      { exact Hh. }
      { right; split; [exact Hge | apply RunFacts.append_to_last_not_nil]. }
      exists self', w'; split; [exact E|].
      destruct (Z.leb_spec 1 e) as [_|Hlt]; [|lia].
      simpl in Hlen, Hsam.
      rewrite (RunFacts.append_to_last_length r Hq) in Hlen.
      rewrite (RunFacts.append_to_last_samples r Hq) in Hsam.
      repeat split; try assumption.
      * rewrite Hlen; unfold q.
        destruct (e =? cur_epoch self)%Z; [lia|].
        rewrite length_app; simpl; lia.
      * rewrite Hsam; unfold q; simpl.
        destruct (e =? cur_epoch self)%Z; [lia|].
        rewrite RunFacts.samples_app; unfold Caller.samples; simpl; lia.
Qed.

Lemma collect_each_counts_witness :
  let table := components Fake.nvidia_on Fake.intel_on in
  let self := {| name := py "gpu"; _handler := Some Fake.nvidia_on;
                 power_usages := []; cur_epoch := (-1)%Z |} in
  exists self' w',
    Caller.collect_each table [0; 1; 1; 3; -2; 3; 1]%Z (self, 0)
    = (Return tt, (self', w'))
    /\ List.length (power_usages self') = 0 + 3
    /\ Caller.samples (power_usages self') = 0 + 5
    /\ Inv.consistent self'
    /\ _handler self' = Some Fake.nvidia_on.
Proof.
  intros table self.
  apply (@collect_each_counts _ table [0; 1; 1; 3; -2; 3; 1]%Z self
           Fake.nvidia_on 0).
  - reflexivity.
  - left; split; reflexivity.
Defined.

(** ** Energy: when it returns, and what sampling leaves of it *)

Section EnergyOutcome.

Import Np.

Lemma energy_loop_app (p1 p2 : list (bucket * Qc)) (acc : list npfloat) :
  energy_loop (p1 ++ p2) acc
  = match energy_loop p1 acc with
    | Return rs => energy_loop p2 rs
    | Raise e => Raise e
    end.
Proof.
  revert acc; induction p1 as [|[b t] p1 IH]; intros acc; simpl;
    [reflexivity|].
  destruct (mean b); [apply IH | reflexivity].
Qed.

Lemma combine_firstn_times {A B} (l : list A) (ts : list B) :
  combine l ts = combine (firstn (List.length ts) l) ts.
Proof.
  revert ts; induction l as [|x l IH]; intros [|t ts]; simpl; try reflexivity.
  f_equal; apply IH.
Qed.

Lemma combine_app_same {A B} (l1 l2 : list A) (t1 t2 : list B) :
  List.length l1 = List.length t1 ->
  combine (l1 ++ l2) (t1 ++ t2) = combine l1 t1 ++ combine l2 t2.
Proof.
  revert t1; induction l1 as [|x l1 IH]; intros [|t t1]; simpl;
    try discriminate; [reflexivity|].
  intros H; f_equal; apply IH; lia.
Qed.

End EnergyOutcome.

(** X11: whatever numpy computes, when the computation of a paired epoch
    raises and those of the pairs before it return, [energy_usage] raises
    that exception: the values of the earlier epochs are not returned and
    the later pairs are not looked at. *)
Theorem energy_usage_first_failure (np : Numpy.t) (World : Type)
  (self : Component World) (epoch_times : list Qc)
  (pre post : list (bucket * Qc)) (b : bucket) (t : Qc) (e : exn) :
  combine (power_usages self) epoch_times = pre ++ (b, t) :: post ->
  Forall (fun bt => exists v,
            WithNumpy.epoch_value np (fst bt) (snd bt) = Return v) pre ->
  WithNumpy.epoch_value np b t = Raise e ->
  WithNumpy.energy_usage np self epoch_times = Raise e.
Proof.
  intros Hc Hpre He; unfold WithNumpy.energy_usage; rewrite Hc.
  destruct (@computed_values np _ Hpre) as (vs & Hvs).
  exact (@energy_loop_raises np pre post b t e vs [] Hvs He).
Qed.

Lemma energy_usage_first_failure_witness :
  let self := {| name := py "gpu"; _handler := Some Fake.nvidia_on;
                 power_usages := [ [[Np.num 5]]; [[Np.num 1; Np.num 2]; [Np.num 3]];
                                   [[Np.num 9]] ];
                 cur_epoch := 3 |} in
  WithNumpy.energy_usage Numpy.exact self [Np.num 10; Np.num 20; Np.num 30]
  = Raise ValueError.
Proof.
  intros self.
  apply (@energy_usage_first_failure Numpy.exact _ self
           [Np.num 10; Np.num 20; Np.num 30]
           [([[Np.num 5]], Np.num 10)] [([[Np.num 9]], Np.num 30)]
           [[Np.num 1; Np.num 2]; [Np.num 3]] (Np.num 20) ValueError).
  - reflexivity.
  - repeat constructor; eexists; reflexivity.
  - reflexivity.
Defined.

(** X12: further sampling does not change the energy of the epochs before
    the current one: after a call of [collect_power_usage], whatever its
    outcome, [energy_usage] for times that stop before the last bucket
    gives what it gave before the call. *)
Theorem energy_usage_of_earlier_epochs (World : Type) (registry : list (comp World))
  (self self' : Component World) (w w' : World) (epoch : Z) (o : Outcome unit)
  (epoch_times : list Qc) :
  collect_power_usage registry epoch (self, w) = (o, (self', w')) ->
  List.length epoch_times < List.length (power_usages self) ->
  energy_usage self' epoch_times = energy_usage self epoch_times.
Proof.
  intros E Hlen.
  destruct (@collect_power_usage_buckets _ _ _ _ _ _ _ _ E)
    as (_ & _ & q & Hq & Hp).
  unfold energy_usage.
  rewrite (combine_firstn_times (power_usages self')),
    (combine_firstn_times (power_usages self)).
  do 2 f_equal.
  assert (Hql : List.length (power_usages self) <= List.length q).
  { destruct Hq as [->| ->]; [lia | rewrite length_app; lia]. }
  assert (Hfq : firstn (List.length epoch_times) q
                = firstn (List.length epoch_times) (power_usages self)).
  { destruct Hq as [->| ->]; [reflexivity|].
    rewrite firstn_app.
    replace (List.length epoch_times - List.length (power_usages self)) with 0
      by lia.
    apply app_nil_r. }
  destruct Hp as [->|(r & ->)]; [exact Hfq|].
  rewrite firstn_append_at by lia; exact Hfq.
Qed.

Lemma energy_usage_of_earlier_epochs_witness :
  let table := components Fake.nvidia_on Fake.intel_on in
  let self := {| name := py "gpu"; _handler := Some Fake.nvidia_on;
                 power_usages := [[[Np.num 1]]; [[Np.num 2]]]; cur_epoch := 2 |} in
  let self' := {| name := py "gpu"; _handler := Some Fake.nvidia_on;
                  power_usages := [[[Np.num 1]]; [[Np.num 2]; [Np.num 103]]];
                  cur_epoch := 2 |} in
  collect_power_usage table 2 (self, 3) = (Return tt, (self', 4))
  /\ energy_usage self' [Np.num 60] = energy_usage self [Np.num 60].
Proof.
  intros table self self'.
  assert (E : collect_power_usage table 2 (self, 3) = (Return tt, (self', 4)))
    by reflexivity.
  split; [exact E|].
  apply (@energy_usage_of_earlier_epochs _ _ _ _ _ _ _ _ [Np.num 60] E).
  simpl; lia.
Defined.

(** X13: a sampling call that fails for lack of a handler still opens the
    bucket of its epoch: when [energy_usage] returned [rs] for the buckets
    that were there, it returns, after the failed call, [rs] followed by
    [nan] for the times extended by one or more. *)
Theorem energy_usage_after_failed_sample (World : Type) (registry : list (comp World))
  (self : Component World) (w : World) (epoch : Z) (epoch_times : list Qc)
  (time : Qc) (later : list Qc) (rs : list Np.npfloat) :
  In (name self) (component_names registry) ->
  _handler self = None ->
  (1 <= epoch)%Z ->
  epoch <> cur_epoch self ->
  List.length epoch_times = List.length (power_usages self) ->
  energy_usage self epoch_times = Return rs ->
  exists e self',
    collect_power_usage registry epoch (self, w) = (Raise e, (self', w))
    /\ energy_usage self' (epoch_times ++ time :: later)
       = Return (rs ++ [Np.NaN]).
Proof.
  intros Hin Hh Hge Hne Hlen Hrs.
  destruct (error_by_name_registered registry (name self) Hin) as (e & He).
  exists e, (Inv.entered epoch self); split.
  - rewrite collect_power_usage_cases.
    destruct (Z.ltb_spec epoch 1) as [Hlt|_]; [lia|]; cbv zeta.
    unfold Inv.entered.
    destruct (Z.eqb_spec epoch (cur_epoch self)) as [E|_]; [contradiction|].
    simpl; destruct (power_usages self ++ [[]]) as [|b rest] eqn:Ep.
    { destruct (power_usages self); discriminate. }
    rewrite Hh, He; reflexivity.
  - unfold energy_usage in *; unfold Inv.entered.
    destruct (Z.eqb_spec epoch (cur_epoch self)) as [E|_]; [contradiction|].
    simpl.
    rewrite (@combine_app_same _ _ (power_usages self) [[]] epoch_times
               (time :: later) (eq_sym Hlen)).
    rewrite energy_loop_app, Hrs; destruct later; reflexivity.
Qed.

Lemma energy_usage_after_failed_sample_witness :
  let table := components Fake.nvidia_off Fake.intel_off in
  let self : Component Fake.World :=
    {| name := py "gpu"; _handler := None; power_usages := [];
       cur_epoch := (-1)%Z |} in
  exists e self',
    collect_power_usage table 1 (self, 0) = (Raise e, (self', 0))
    /\ energy_usage self' ([] ++ Np.num 3600 :: [])
       = Return ([] ++ [Np.NaN]).
Proof.
  intros table self.
  apply (@energy_usage_after_failed_sample _ table self 0 1 [] (Np.num 3600)
           [] []).
  - left; reflexivity.
  - reflexivity.
  - lia.
  - discriminate.
  - reflexivity.
  - reflexivity.
Defined.
